(** * gryds: the CUDA B-spline interpolator adapter

    A shallow embedding of [gryds/interpolators/bspline_cuda.py]: the class
    [BSplineInterpolatorCUDA] with its constructor and its three operations
    [sample], [resample] and [transform], together with the parts of Python
    and numpy the class relies on (truthiness of values, keyword
    dictionaries, [reshape], [transpose], [astype]). *)

From Stdlib Require Import ZArith QArith Qround List Lia PrimFloat.
From stdpp Require Import base option list strings gmap.

Local Open Scope Z_scope.
Local Open Scope nat_scope.

(** ** Python values *)

Module Py.

(** The values that reach [mode], [order] and [cval]: [None], booleans,
    integers, floats (IEEE binary64) and strings. *)
Inductive value : Type :=
| VNone
| VBool (b : bool)
| VInt (z : Z)
| VFloat (f : float)
| VStr (s : string).

(** [bool(v)]: [None], [False], [0], [0.0], [-0.0] and [''] are falsy; every
    other value, NaN included, is truthy. *)
Definition truthy (v : value) : bool :=
  match v with
  | VNone => false
  | VBool b => b
  | VInt z => negb (z =? 0)%Z
  | VFloat f => negb (PrimFloat.eqb f PrimFloat.zero)
  | VStr s => negb (String.eqb s EmptyString)
  end.

(** The conditional expression [a if c else b]. *)
Definition if_else (a c b : value) : value :=
  if truthy c then a else b.

End Py.

(** ** Exceptions *)

(** The exceptions the adapter can see: the two [ValueError]s of numpy's
    [reshape], and whatever a collaborator (the kernel, the grid, the base
    class) raises, kept by its name. *)
Inductive exn : Type :=
| ValueError_reshape (size : nat) (newshape : list Z)
| ValueError_unknown_dims
| External (name : string).

Inductive result (A : Type) : Type :=
| Ok (a : A)
| Raise (e : exn).
Arguments Ok {A} a.
Arguments Raise {A} e.

#[global] Instance result_ret : MRet result := @Ok.
#[global] Instance result_bind : MBind result :=
  fun A B f r => match r with Ok a => f a | Raise e => Raise e end.

Definition is_ok {A} (r : result A) : bool :=
  match r with Ok _ => true | Raise _ => false end.

(** ** numpy arrays *)

Module np.

Inductive dtype : Type :=
| bool_ | uint8 | int32 | int64 | float16 | float32 | float64.

#[global] Instance dtype_eq_dec : EqDecision dtype.
Proof. solve_decision. Defined.

(** An array is its dtype, its shape and its elements in C (row-major)
    order, which is the order [reshape] works in whatever the strides. *)
Record ndarray (E : Type) : Type := mk_ndarray {
  dtype_of : dtype;
  shape : list nat;
  data : list E
}.
Arguments mk_ndarray {E} _ _ _.
Arguments dtype_of {E} _.
Arguments shape {E} _.
Arguments data {E} _.

Definition prod (dims : list nat) : nat := foldr Nat.mul 1 dims.

Section Arrays.
Context {E : Type}.

Definition ndim (a : ndarray E) : nat := length (shape a).
Definition size (a : ndarray E) : nat := prod (shape a).

(** Every array numpy builds holds [size] elements. *)
Definition wf (a : ndarray E) : Prop := length (data a) = size a.

(** [a.reshape(newshape)], with numpy's rule for an unknown (negative)
    dimension: at most one; the known dimensions must have a non-zero
    product that divides the size; without an unknown dimension the
    product must be the size. The elements keep their C order. *)
Definition reshape (a : ndarray E) (newshape : list Z) : result (ndarray E) :=
  let s_original := Z.of_nat (size a) in
  let s_known := foldr Z.mul 1%Z (List.filter (fun d => 0 <=? d)%Z newshape) in
  let mismatch := Raise (ValueError_reshape (size a) newshape) in
  match List.filter (fun d => d <? 0)%Z newshape with
  | [] =>
      if (s_original =? s_known)%Z
      then Ok (mk_ndarray (dtype_of a) (Z.to_nat <$> newshape) (data a))
      else mismatch
  | [_] =>
      if (s_known =? 0)%Z || negb (s_original mod s_known =? 0)%Z
      then mismatch
      else Ok (mk_ndarray (dtype_of a)
                 ((fun d => if (d <? 0)%Z then Z.to_nat (s_original / s_known)
                            else Z.to_nat d) <$> newshape)
                 (data a))
  | _ => Raise ValueError_unknown_dims
  end.

(** The multi-index of flat position [t] in an array of shape [dims]. *)
Fixpoint unravel (dims : list nat) (t : nat) : list nat :=
  match dims with
  | [] => []
  | _ :: rest => t / prod rest :: unravel rest (t mod prod rest)
  end.

(** The flat position of a multi-index. *)
Fixpoint ravel (dims idx : list nat) : nat :=
  match dims, idx with
  | _ :: rest, i :: idx' => i * prod rest + ravel rest idx'
  | _, _ => 0
  end.

(** [np.transpose(a)]: the axes reversed. *)
Definition transpose (a : ndarray E) : ndarray E :=
  let new_shape := rev (shape a) in
  mk_ndarray (dtype_of a) new_shape
    (omap (fun t => data a !! ravel (shape a) (rev (unravel new_shape t)))
          (seq 0 (prod new_shape))).

(** [a.astype(d)]: a copy with dtype [d]; the elements are converted by
    [cast] when the dtype changes and kept as they are when it does not. *)
Definition astype (cast : dtype -> dtype -> E -> E) (d : dtype)
    (a : ndarray E) : ndarray E :=
  mk_ndarray d (shape a)
    (if decide (dtype_of a = d) then data a else cast (dtype_of a) d <$> data a).

(** [np.array(a)] of an array: a copy. *)
Definition array (a : ndarray E) : ndarray E := a.

End Arrays.
End np.

(** ** cupy arrays *)

Module cp.

(** An array in device memory. *)
Inductive ndarray (E : Type) : Type :=
| on_device (host : np.ndarray E).
Arguments on_device {E} host.

(** [cp.array(a)]: host to device. *)
Definition array {E} (a : np.ndarray E) : ndarray E := on_device a.

(** [cp.asnumpy(a)]: device to host. *)
Definition asnumpy {E} (a : ndarray E) : np.ndarray E :=
  match a with on_device host => host end.

End cp.

(** ** The collaborators of the adapter *)

(** What the class imports and does not define: the element type of arrays
    and numpy's conversion between dtypes, [gryds.config.DTYPE], the [Grid]
    class with its [grid] attribute and its [scaled_to] and [transform]
    methods, the transforms, the constructor of the [Interpolator] base
    class (it sets [self.image] and [self.grid]), and the kernel
    [cupyx.scipy.ndimage.map_coordinates], called with the keyword
    arguments [input], [coordinates], [mode], [order] and [cval]. *)
Class Collaborators : Type := {
  elem : Type;
  cast : np.dtype -> np.dtype -> elem -> elem;
  DTYPE : np.dtype;
  Grid : Type;
  Transform : Type;
  Grid_grid : Grid -> np.ndarray elem;
  Grid_scaled_to : Grid -> list nat -> result Grid;
  Grid_transform : Grid -> list Transform -> result Grid;
  Interpolator_init : np.ndarray elem -> result (np.ndarray elem * Grid);
  map_coordinates :
    cp.ndarray elem -> cp.ndarray elem ->
    Py.value -> Py.value -> Py.value -> result (cp.ndarray elem)
}.

(** ** The class BSplineInterpolatorCUDA *)

Section Adapter.
Context `{Collaborators}.

Record BSplineInterpolatorCUDA : Type := mk_self {
  image : np.ndarray elem;
  grid : Grid;
  default_mode : Py.value;
  default_order : Py.value;
  default_cval : Py.value
}.

(** A method body: it runs on the instance and leaves an instance behind,
    also when it raises. *)
Definition method (A : Type) : Type :=
  BSplineInterpolatorCUDA -> result A * BSplineInterpolatorCUDA.

#[global] Instance method_ret : MRet method := fun A a self => (Ok a, self).
#[global] Instance method_bind : MBind method :=
  fun A B f m self =>
    match m self with
    | (Ok a, self') => f a self'
    | (Raise e, self') => (Raise e, self')
    end.

(** Reading [self.attr]. *)
Definition attr {A} (proj : BSplineInterpolatorCUDA -> A) : method A :=
  fun self => (Ok (proj self), self).

(** A call that does not touch the instance. *)
Definition call {A} (r : result A) : method A := fun self => (r, self).

(** [__init__(self, image, mode='constant', order=1, cval=0)]. *)
Definition __init__ (image : np.ndarray elem) (mode order cval : Py.value)
    : result BSplineInterpolatorCUDA :=
  '(img, g) ← Interpolator_init image;
  Ok (mk_self img g mode order cval).

(** [sample(self, points, mode=None, order=None, cval=None)]. *)
Definition sample (points : np.ndarray elem) (mode order cval : Py.value)
    : method (np.ndarray elem) :=
  d_mode ← attr default_mode;
  let new_mode := Py.if_else mode mode d_mode in
  d_order ← attr default_order;
  let new_order := Py.if_else order order d_order in
  d_cval ← attr default_cval;
  let new_cval := Py.if_else cval cval d_cval in
  img ← attr image;
  points ← call (np.reshape points [Z.of_nat (np.ndim img); -1]%Z);
  let points := np.transpose points in
  img ← attr image;
  sample_gpu ← call (map_coordinates (cp.array img) (cp.array points)
                       new_mode new_order new_cval);
  let sample_cpu := cp.asnumpy sample_gpu in
  img ← attr image;
  sample ← call (np.reshape sample_cpu (Z.of_nat <$> np.shape img));
  mret (np.array (np.astype cast DTYPE sample)).

(** [resample(self, grid, mode=None, order=None, cval=None)]. *)
Definition resample (grid : Grid) (mode order cval : Py.value)
    : method (np.ndarray elem) :=
  img ← attr image;
  rescaled_grid ← call (Grid_scaled_to grid (np.shape img));
  new_image ← sample (Grid_grid rescaled_grid) mode order cval;
  mret (np.astype cast DTYPE new_image).

(** [kwargs[key] if key in kwargs else None]. *)
Definition kwarg (kwargs : gmap string Py.value) (key : string) : Py.value :=
  match kwargs !! key with
  | Some v => v
  | None => Py.VNone
  end.

(** [transform(self, *transforms, **kwargs)]. *)
Definition transform (transforms : list Transform)
    (kwargs : gmap string Py.value) : method (np.ndarray elem) :=
  let mode := kwarg kwargs "mode" in
  let order := kwarg kwargs "order" in
  let cval := kwarg kwargs "cval" in
  g ← attr grid;
  transformed_grid ← call (Grid_transform g transforms);
  new_grid ← resample transformed_grid mode order cval;
  mret (np.astype cast DTYPE new_grid).

(** ** The operations in the words of the specification *)

(** The effective value of a configuration field: the per-call override if
    it is truthy, the instance default otherwise. *)
Definition effective (override default : Py.value) : Py.value :=
  if Py.truthy override then override else default.

(** Sampling under a settled configuration: the points become a list of
    [ndim]-tuples, the kernel samples the image at each of them, and the
    intensities come back in the shape of the image, in the configured
    precision. *)
Definition sample_configured (img points : np.ndarray elem)
    (mode order cval : Py.value) : result (np.ndarray elem) :=
  coords ← np.reshape points [Z.of_nat (np.ndim img); -1]%Z;
  flat ← map_coordinates (cp.array img) (cp.array (np.transpose coords))
           mode order cval;
  intensities ← np.reshape (cp.asnumpy flat) (Z.of_nat <$> np.shape img);
  Ok (np.astype cast DTYPE intensities).

(** "Rescales the given grid to the image's shape, then calls [sample] on
    the rescaled grid's coordinate array with the same overrides." *)
Definition resample_spec (grid : Grid) (mode order cval : Py.value)
    : method (np.ndarray elem) :=
  img ← attr image;
  rescaled ← call (Grid_scaled_to grid (np.shape img));
  sample (Grid_grid rescaled) mode order cval.

(** A call of [resample] with keyword arguments: an argument that is not
    given takes its default, [None]. *)
Definition resample_kw (grid : Grid) (mode order cval : option Py.value)
    : method (np.ndarray elem) :=
  resample grid (default Py.VNone mode) (default Py.VNone order)
    (default Py.VNone cval).

(** "Applies the transforms to the instance's own grid, then calls
    [resample] with the transformed grid and the given overrides." *)
Definition transform_spec (transforms : list Transform)
    (kwargs : gmap string Py.value) : method (np.ndarray elem) :=
  g ← attr grid;
  transformed ← call (Grid_transform g transforms);
  resample_kw transformed (kwargs !! "mode") (kwargs !! "order")
    (kwargs !! "cval").

(** The keyword arguments [transform] declares in its docstring. *)
Definition known_keys : list string := ["mode"; "order"; "cval"].

End Adapter.

(** ** A test double for the collaborators *)

(** Exact rationals stand in for the floats, so that the adapter can be
    run. The kernel follows the layout of
    [cupyx.scipy.ndimage.map_coordinates]: the first axis of [coordinates]
    runs over the axes of the image, coordinate [j] of output element [i]
    is [coordinates.flat[i + j * ncoords]], and the output has the shape
    [coordinates.shape[1:]] and the dtype of the input. Of the library's
    orders the double knows 0 and 1, of its modes 'constant' (the fill
    value wherever a coordinate leaves [0, size - 1]) and 'nearest'
    (indices clamped to the image), of fill values integers and booleans;
    it refuses the rest. Grids hold normalised coordinates, transforms are
    translations. *)
Module Mock.

Definition is_str (v : Py.value) (s : string) : bool :=
  match v with Py.VStr s' => String.eqb s' s | _ => false end.

Definition number (v : Py.value) : option Q :=
  match v with
  | Py.VInt z => Some (inject_Z z)
  | Py.VBool b => Some (if b then 1 else 0)%Q
  | _ => None
  end.

Definition order_number (v : Py.value) : option Z :=
  match v with
  | Py.VInt z => Some z
  | Py.VBool b => Some (if b then 1 else 0)%Z
  | _ => None
  end.

(** C's [rint]: the nearest integer, the even one at a tie. *)
Definition rint (x : Q) : Z :=
  let f := Qfloor x in
  match (x - inject_Z f ?= 1 # 2)%Q with
  | Lt => f
  | Eq => if Z.even f then f else (f + 1)%Z
  | Gt => (f + 1)%Z
  end.

Definition clamp (d : nat) (i : Z) : Z :=
  Z.min (Z.max i 0) (Z.of_nat d - 1).

(** The pixel at a multi-index inside the image. *)
Definition pixel (img : np.ndarray Q) (idx : list Z) : Q :=
  default 0%Q (np.data img !! np.ravel (np.shape img) (Z.to_nat <$> idx)).

(** Every coordinate lies in [0, size - 1] of its axis. *)
Definition inside (dims : list nat) (coords : list Q) : bool :=
  forallb (fun '(x, d) =>
             Qle_bool 0 x && Qle_bool x (inject_Z (Z.of_nat d) - 1))
    (combine coords dims).

(** Order 0 takes the pixel at the rounded coordinates; order 1 weighs the
    two neighbours along each axis, or takes the one pixel when the
    coordinate is an integer. With [nearest] the indices are clamped. *)
Fixpoint interpolate (linear nearest : bool) (px : list Z -> Q)
    (dims : list nat) (coords : list Q) (idx : list Z) : Q :=
  match coords, dims with
  | x :: coords', d :: dims' =>
      let bound i := if nearest then clamp d i else i in
      if linear then
        let f := Qfloor x in
        let t := (x - inject_Z f)%Q in
        if Qeq_bool t 0
        then interpolate linear nearest px dims' coords' (bound f :: idx)
        else ((1 - t)
              * interpolate linear nearest px dims' coords' (bound f :: idx)
              + t * interpolate linear nearest px dims' coords'
                      (bound (f + 1)%Z :: idx))%Q
      else interpolate linear nearest px dims' coords' (bound (rint x) :: idx)
  | _, _ => px (rev idx)
  end.

Definition is_integer_dtype (d : np.dtype) : bool :=
  match d with
  | np.uint8 | np.int32 | np.int64 => true
  | _ => false
  end.

Definition kernel (input coordinates : cp.ndarray Q)
    (mode order cval : Py.value) : result (cp.ndarray Q) :=
  let img := cp.asnumpy input in
  let pts := cp.asnumpy coordinates in
  match order_number order with
  | None => Raise (External "TypeError")
  | Some o =>
      let nearest := is_str mode "nearest" in
      if negb ((o =? 0)%Z || (o =? 1)%Z)
         || negb (is_str mode "constant" || nearest)
      then Raise (External "ValueError")
      else
        match number cval, np.shape pts with
        | None, _ => Raise (External "TypeError")
        | Some fill, [] => Raise (External "IndexError")
        | Some fill, axes :: rest =>
            if axes <? np.ndim img then Raise (External "IndexError")
            else
              let ncoords := np.prod rest in
              let value i :=
                let coords :=
                  omap (fun j => np.data pts !! (i + j * ncoords))
                    (seq 0 (np.ndim img)) in
                let v :=
                  if nearest || inside (np.shape img) coords
                  then interpolate (o =? 1)%Z nearest (pixel img)
                         (np.shape img) coords []
                  else fill in
                Qred (if is_integer_dtype (np.dtype_of img)
                      then inject_Z (rint v) else v) in
              Ok (cp.on_device
                    (np.mk_ndarray (np.dtype_of img) rest
                       (value <$> seq 0 ncoords)))
        end
  end.

(** The grid of an image of shape [dims]: axis [k] holds [i_k / d_k]. *)
Definition default_grid (dims : list nat) : np.ndarray Q :=
  np.mk_ndarray np.float64 (length dims :: dims)
    (flat_map
       (fun k =>
          (fun t => Qred (inject_Z (Z.of_nat (nth k (np.unravel dims t) 0))
                          / inject_Z (Z.of_nat (nth k dims 0))))
          <$> seq 0 (np.prod dims))
       (seq 0 (length dims))).

(** Applies [f k] to the coordinates of axis [k]. *)
Definition per_axis (f : nat -> Q -> Q) (g : np.ndarray Q) : np.ndarray Q :=
  let n := np.prod (tl (np.shape g)) in
  np.mk_ndarray (np.dtype_of g) (np.shape g)
    (imap (fun t x => Qred (f (t / n) x)) (np.data g)).

Definition scaled_to (g : np.ndarray Q) (dims : list nat)
    : result (np.ndarray Q) :=
  if hd 0 (np.shape g) =? length dims
  then Ok (per_axis (fun k x => x * inject_Z (Z.of_nat (nth k dims O)))%Q g)
  else Raise (External "ValueError").

Definition translate (g : np.ndarray Q) (offsets : list (list Q))
    : result (np.ndarray Q) :=
  Ok (foldl (fun g off => per_axis (fun k x => x + nth k off 0)%Q g) g offsets).

#[export] Instance collaborators : Collaborators := {|
  elem := Q;
  cast := fun _ _ x => x;
  DTYPE := np.float32;
  Grid := np.ndarray Q;
  Transform := list Q;
  Grid_grid := fun g => g;
  Grid_scaled_to := scaled_to;
  Grid_transform := translate;
  Interpolator_init := fun img => Ok (img, default_grid (np.shape img));
  map_coordinates := kernel
|}.

Definition constant : Py.value := Py.VStr "constant".

(** A 1 x 2 strip [[0, 1]], the smallest checkerboard: as many pixels as
    axes. *)
Definition strip : np.ndarray elem :=
  np.mk_ndarray np.float64 [1; 2] [0; 1]%Q.

(** The same strip with 8-bit pixels. *)
Definition strip_uint8 : np.ndarray elem :=
  np.mk_ndarray np.uint8 [1; 2] [0; 1]%Q.

(** [np.array([[[0, .25]], [[0, .75]]])], of shape (2, 1, 2): the kernel
    reads it as the positions (0, .25) and (0, .75). *)
Definition strip_points : np.ndarray elem :=
  np.mk_ndarray np.float64 [2; 1; 2] [0; 1 # 4; 0; 3 # 4]%Q.

(** The strip at [strip_points], with order 0 and with order 1. *)
Definition strip_nearest : np.ndarray elem :=
  np.mk_ndarray np.float32 [1; 2] [0; 1]%Q.

Definition strip_linear : np.ndarray elem :=
  np.mk_ndarray np.float32 [1; 2] [1 # 4; 3 # 4]%Q.


(** The adapters [BSplineInterpolatorCUDA(strip)] and
    [BSplineInterpolatorCUDA(strip_uint8)], with the defaults of the
    constructor. *)
Definition strip_adapter : BSplineInterpolatorCUDA :=
  mk_self strip (default_grid [1; 2]) constant (Py.VInt 1) (Py.VInt 0).

Definition strip_uint8_adapter : BSplineInterpolatorCUDA :=
  mk_self strip_uint8 (default_grid [1; 2]) constant (Py.VInt 1) (Py.VInt 0).

(** A 2 x 2 checkerboard, the pixel positions moved by a quarter pixel
    along both axes as a (2, 2, 2) coordinate array, and three numbers. *)
Definition checkerboard : np.ndarray elem :=
  np.mk_ndarray np.float64 [2; 2] [0; 1; 1; 0]%Q.

Definition quarter_shifted : np.ndarray elem :=
  np.mk_ndarray np.float64 [2; 2; 2]
    [1 # 4; 1 # 4; 5 # 4; 5 # 4; 1 # 4; 5 # 4; 1 # 4; 5 # 4]%Q.


Definition checkerboard_adapter : BSplineInterpolatorCUDA :=
  mk_self checkerboard (default_grid [2; 2]) constant (Py.VInt 1) (Py.VInt 0).



(** A grid that checks its transforms: a translation must give one offset
    per axis. *)
Definition strict_translate (g : np.ndarray Q) (offsets : list (list Q))
    : result (np.ndarray Q) :=
  if forallb (fun off => length off =? hd 0 (np.shape g)) offsets
  then translate g offsets
  else Raise (External "ValueError").

Definition strict : Collaborators := {|
  elem := Q;
  cast := fun _ _ x => x;
  DTYPE := np.float32;
  Grid := np.ndarray Q;
  Transform := list Q;
  Grid_grid := fun g => g;
  Grid_scaled_to := scaled_to;
  Grid_transform := strict_translate;
  Interpolator_init := fun img => Ok (img, default_grid (np.shape img));
  map_coordinates := kernel
|}.

End Mock.

(** * Properties *)

(** ** Truthiness *)

Lemma truthy_float_examples :
  Py.truthy (Py.VFloat PrimFloat.neg_zero) = false /\
  Py.truthy (Py.VFloat PrimFloat.nan) = true /\
  Py.truthy (Py.VFloat PrimFloat.one) = true.
Proof. repeat split; reflexivity. Qed.

Lemma if_else_effective override dflt :
  Py.if_else override override dflt = effective override dflt.
Proof. reflexivity. Qed.

Lemma effective_falsy override dflt :
  Py.truthy override = false -> effective override dflt = dflt.
Proof. unfold effective. now intros ->. Qed.

Lemma effective_truthy override dflt :
  Py.truthy override = true -> effective override dflt = override.
Proof. unfold effective. now intros ->. Qed.

Lemma effective_None dflt : effective Py.VNone dflt = dflt.
Proof. reflexivity. Qed.

(** ** Arrays *)

Section ArrayFacts.
Context {E : Type}.
Implicit Types (a : np.ndarray E) (dims : list nat).

Lemma prod_of_nat dims :
  foldr Z.mul 1%Z (Z.of_nat <$> dims) = Z.of_nat (np.prod dims).
Proof.
  induction dims as [|d dims IH]; [reflexivity|].
  change (Z.of_nat d * foldr Z.mul 1 (Z.of_nat <$> dims) =
          Z.of_nat (d * np.prod dims))%Z.
  rewrite IH. lia.
Qed.

Lemma filter_neg_of_nat dims :
  List.filter (fun d => d <? 0)%Z (Z.of_nat <$> dims) = [].
Proof.
  induction dims as [|d dims IH]; [reflexivity|].
  rewrite fmap_cons. cbn [List.filter].
  destruct (Z.ltb_spec (Z.of_nat d) 0); [lia | exact IH].
Qed.

Lemma filter_nonneg_of_nat dims :
  List.filter (fun d => 0 <=? d)%Z (Z.of_nat <$> dims) = Z.of_nat <$> dims.
Proof.
  induction dims as [|d dims IH]; [reflexivity|].
  rewrite fmap_cons. cbn [List.filter].
  destruct (Z.leb_spec 0 (Z.of_nat d)); [now rewrite IH | lia].
Qed.

Lemma to_nat_of_nat dims : Z.to_nat <$> (Z.of_nat <$> dims) = dims.
Proof.
  induction dims as [|d dims IH]; [reflexivity|].
  rewrite !fmap_cons. now rewrite Nat2Z.id, IH.
Qed.

(** Reshaping to a shape without unknown dimension succeeds exactly when
    the shape holds as many elements as the array. *)
Lemma reshape_exact a dims :
  np.reshape a (Z.of_nat <$> dims) =
  if decide (np.size a = np.prod dims)
  then Ok (np.mk_ndarray (np.dtype_of a) dims (np.data a))
  else Raise (ValueError_reshape (np.size a) (Z.of_nat <$> dims)).
Proof.
  unfold np.reshape.
  rewrite filter_neg_of_nat, filter_nonneg_of_nat.
  rewrite prod_of_nat, to_nat_of_nat.
  destruct (Z.eqb_spec (Z.of_nat (np.size a)) (Z.of_nat (np.prod dims)));
    case_decide; try reflexivity; lia.
Qed.

(** [reshape(nd, -1)] succeeds exactly when [nd] is not zero and divides
    the size. *)
Lemma reshape_rows_ok a nd :
  nd <> 0 -> np.size a mod nd = 0 ->
  np.reshape a [Z.of_nat nd; -1]%Z =
  Ok (np.mk_ndarray (np.dtype_of a) [nd; np.size a / nd] (np.data a)).
Proof.
  intros Hnd Hmod. unfold np.reshape. simpl.
  destruct (Z.ltb_spec (Z.of_nat nd) 0); [lia|].
  destruct (Z.leb_spec 0 (Z.of_nat nd)); [|lia]. simpl.
  destruct (Z.eqb_spec (Z.of_nat nd * 1) 0); [lia|]. simpl.
  replace (Z.of_nat nd * 1)%Z with (Z.of_nat nd) by lia.
  rewrite <- Nat2Z.inj_mod, Hmod. simpl.
  now rewrite <- Nat2Z.inj_div, !Nat2Z.id.
Qed.

Lemma reshape_rows_err a nd :
  nd = 0 \/ np.size a mod nd <> 0 ->
  np.reshape a [Z.of_nat nd; -1]%Z =
  Raise (ValueError_reshape (np.size a) [Z.of_nat nd; -1]%Z).
Proof.
  intros Hbad. unfold np.reshape. simpl.
  destruct (Z.ltb_spec (Z.of_nat nd) 0); [lia|].
  destruct (Z.leb_spec 0 (Z.of_nat nd)); [|lia]. simpl.
  destruct (Z.eqb_spec (Z.of_nat nd * 1) 0); [reflexivity|]. simpl.
  replace (Z.of_nat nd * 1)%Z with (Z.of_nat nd) by lia.
  rewrite <- Nat2Z.inj_mod.
  destruct Hbad as [->|Hmod]; [lia|].
  destruct (Z.eqb_spec (Z.of_nat (np.size a mod nd)) 0); [lia | reflexivity].
Qed.

Lemma reshape_rows_inv a nd coords :
  np.reshape a [Z.of_nat nd; -1]%Z = Ok coords ->
  nd <> 0 /\ np.size a mod nd = 0 /\
  coords = np.mk_ndarray (np.dtype_of a) [nd; np.size a / nd] (np.data a).
Proof.
  intros Hok.
  destruct (Nat.eq_dec nd 0) as [Hz|Hnz].
  { rewrite reshape_rows_err in Hok by now left. discriminate. }
  destruct (Nat.eq_dec (np.size a mod nd) 0) as [Hdiv|Hndiv].
  - rewrite reshape_rows_ok in Hok by assumption.
    injection Hok as <-. now repeat split.
  - rewrite reshape_rows_err in Hok by now right. discriminate.
Qed.

Lemma reshape_shape_exact a dims r :
  np.reshape a (Z.of_nat <$> dims) = Ok r -> np.shape r = dims.
Proof.
  rewrite reshape_exact. case_decide; [|discriminate].
  now intros [= <-].
Qed.

Lemma omap_lookup_total {A B} (f : A -> option B) (l : list A) :
  (forall x, x ∈ l -> is_Some (f x)) ->
  length (omap f l) = length l /\
  forall i x, l !! i = Some x -> omap f l !! i = f x.
Proof.
  induction l as [|y l IH]; intros Hf.
  - split; [reflexivity | intros i x Hi; discriminate].
  - destruct (Hf y) as [b Hb]; [left|].
    destruct IH as [IHlen IHget]; [intros x Hx; apply Hf; now right|].
    change (omap f (y :: l)) with
      (match f y with Some z => z :: omap f l | None => omap f l end).
    rewrite Hb. split; [simpl; now rewrite IHlen|].
    intros [|i] x Hi; simpl in *; [congruence | now apply IHget].
Qed.

(** The position in a [rows] x [cols] array that lands at position [t] of
    its transpose. *)
Lemma transposed_position rows cols t :
  np.ravel [rows; cols] (rev (np.unravel [cols; rows] t)) =
  t `mod` rows * cols + t / rows.
Proof.
  cbn [np.unravel np.ravel np.prod foldr rev app].
  rewrite !Nat.mul_1_r, Nat.div_1_r. lia.
Qed.

Lemma transposed_position_lt rows cols t :
  t < cols * rows -> t `mod` rows * cols + t / rows < rows * cols.
Proof.
  intros Ht. assert (rows <> 0) by lia.
  pose proof (Nat.mod_upper_bound t rows ltac:(assumption)).
  assert (t / rows < cols) by (apply Nat.Div0.div_lt_upper_bound; lia).
  nia.
Qed.

(** The transpose of a two-dimensional array: entry [(i, j)] is entry
    [(j, i)] of the array. *)
Lemma transpose_2d a rows cols :
  np.shape a = [rows; cols] -> np.wf a ->
  np.shape (np.transpose a) = [cols; rows] /\
  np.wf (np.transpose a) /\
  forall i j, i < cols -> j < rows ->
    np.data (np.transpose a) !! (i * rows + j) = np.data a !! (j * cols + i).
Proof.
  intros Hshape Hwf. unfold np.wf, np.size in *. unfold np.transpose.
  rewrite Hshape in *. cbn [np.shape np.data rev app].
  assert (Hprod : forall x y, np.prod [x; y] = x * y)
    by (intros; unfold np.prod; simpl; lia).
  rewrite Hprod in *.
  destruct (omap_lookup_total
              (fun t => np.data a !! np.ravel [rows; cols]
                                       (rev (np.unravel [cols; rows] t)))
              (seq 0 (cols * rows))) as [Hlen Hget].
  { intros t Ht. apply elem_of_seq in Ht. rewrite transposed_position.
    apply lookup_lt_is_Some. rewrite Hwf.
    apply transposed_position_lt. lia. }
  split; [reflexivity|]. split; [now rewrite Hlen, length_seq|].
  intros i j Hi Hj.
  rewrite (Hget (i * rows + j) (i * rows + j)).
  - rewrite transposed_position. f_equal.
    rewrite <- (Nat.mod_unique (i * rows + j) rows i j) by lia.
    rewrite <- (Nat.div_unique (i * rows + j) rows i j) by lia.
    reflexivity.
  - apply lookup_seq. nia.
Qed.

(** Transposing a two-dimensional array twice gives the array back. *)
Lemma transpose_2d_involutive a rows cols :
  np.shape a = [rows; cols] -> np.wf a ->
  np.transpose (np.transpose a) = a.
Proof.
  intros Hshape Hwf.
  destruct (transpose_2d a rows cols Hshape Hwf) as (Hs1 & Hwf1 & Hget1).
  destruct (transpose_2d (np.transpose a) cols rows Hs1 Hwf1)
    as (Hs2 & Hwf2 & Hget2).
  assert (Hdata : np.data (np.transpose (np.transpose a)) = np.data a).
  { apply list_eq. intros t.
    assert (Hlen2 : length (np.data (np.transpose (np.transpose a)))
                    = rows * cols).
    { unfold np.wf, np.size in Hwf2. rewrite Hwf2, Hs2.
      unfold np.prod. simpl. lia. }
    assert (Hlen : length (np.data a) = rows * cols).
    { unfold np.wf, np.size in Hwf. rewrite Hwf, Hshape.
      unfold np.prod. simpl. lia. }
    destruct (Nat.lt_ge_cases t (rows * cols)) as [Hlt|Hge].
    - assert (Hc : cols <> 0) by lia.
      pose proof (Nat.div_mod_eq t cols) as Ht.
      pose proof (Nat.mod_upper_bound t cols Hc) as Hi.
      assert (Hj : t / cols < rows)
        by (apply Nat.Div0.div_lt_upper_bound; lia).
      remember (t / cols) as j eqn:Ej. remember (t mod cols) as i eqn:Ei.
      assert (Hsplit : t = j * cols + i) by lia.
      clear Ej Ei Ht. subst t.
      rewrite Hget2 by assumption. now apply Hget1.
    - rewrite !lookup_ge_None_2 by lia. reflexivity. }
  destruct a as [d sh xs]. cbn [np.shape np.data] in *. subst sh.
  unfold np.transpose in *. cbn [np.shape np.data np.dtype_of rev app] in *.
  now rewrite Hdata.
Qed.

End ArrayFacts.

(** ** The adapter *)

Section AdapterFacts.
Context `{Collaborators}.
Implicit Types (self : BSplineInterpolatorCUDA) (points img : np.ndarray elem).
Implicit Types (mode order cval : Py.value).

Lemma astype_dtype (a : np.ndarray elem) :
  np.dtype_of (np.astype cast DTYPE a) = DTYPE.
Proof. reflexivity. Qed.

Lemma astype_shape (a : np.ndarray elem) :
  np.shape (np.astype cast DTYPE a) = np.shape a.
Proof. reflexivity. Qed.

(** Converting to the dtype an array already has changes nothing. *)
Lemma astype_idem (a : np.ndarray elem) :
  np.astype cast DTYPE (np.astype cast DTYPE a) = np.astype cast DTYPE a.
Proof.
  unfold np.astype at 1. cbn [np.dtype_of np.astype np.shape np.data].
  now rewrite decide_True by reflexivity.
Qed.

Lemma sample_configured_astype img points mode order cval r :
  sample_configured img points mode order cval = Ok r ->
  np.astype cast DTYPE r = r.
Proof.
  unfold sample_configured, mbind, result_bind.
  repeat (case_match; try discriminate).
  intros [= <-]. apply astype_idem.
Qed.

(** Once the points are a table of coordinates, the outcome is the
    kernel's: its error, or its values in the shape of the image when there
    are as many as pixels, or the error of the last [reshape]. *)
Lemma sample_configured_kernel img points mode order cval coords :
  np.reshape points [Z.of_nat (np.ndim img); -1]%Z = Ok coords ->
  sample_configured img points mode order cval =
  flat ← map_coordinates (cp.array img) (cp.array (np.transpose coords))
           mode order cval;
  if decide (np.size (cp.asnumpy flat) = np.size img)
  then Ok (np.astype cast DTYPE
             (np.mk_ndarray (np.dtype_of (cp.asnumpy flat)) (np.shape img)
                (np.data (cp.asnumpy flat))))
  else Raise (ValueError_reshape (np.size (cp.asnumpy flat))
                (Z.of_nat <$> np.shape img)).
Proof.
  intros Hcoords. unfold sample_configured. rewrite Hcoords.
  cbn [mbind result_bind].
  destruct (map_coordinates _ _ _ _ _) as [flat|e]; [|reflexivity].
  cbn [mbind result_bind]. rewrite reshape_exact. fold (np.size img).
  now case_decide.
Qed.

Lemma sample_configured_no_coords img points mode order cval e :
  np.reshape points [Z.of_nat (np.ndim img); -1]%Z = Raise e ->
  sample_configured img points mode order cval = Raise e.
Proof. intros Hcoords. unfold sample_configured. now rewrite Hcoords. Qed.

(** What [sample_configured] returns has the shape of the image and the
    configured dtype. *)
Lemma sample_configured_returns img points mode order cval r :
  sample_configured img points mode order cval = Ok r ->
  np.shape r = np.shape img /\ np.dtype_of r = DTYPE.
Proof.
  unfold sample_configured, mbind, result_bind.
  destruct (np.reshape points _) as [coords|e]; [|discriminate].
  destruct (map_coordinates _ _ _ _ _) as [flat|e]; [|discriminate].
  destruct (np.reshape (cp.asnumpy flat) _) as [x|e] eqn:Ex; [|discriminate].
  intros [= <-]. split; [|reflexivity].
  rewrite astype_shape. now apply reshape_shape_exact in Ex.
Qed.

(** [sample] leaves the instance as it is and returns what sampling under
    the effective configuration returns. *)
Lemma sample_run points mode order cval self :
  sample points mode order cval self =
  (sample_configured (image self) points
     (effective mode (default_mode self))
     (effective order (default_order self))
     (effective cval (default_cval self)),
   self).
Proof.
  unfold sample, sample_configured, mbind, method_bind, result_bind, attr, call,
    mret, method_ret.
  rewrite !if_else_effective.
  destruct (np.reshape points _) as [coords|e]; [|reflexivity].
  destruct (map_coordinates _ _ _ _ _) as [flat|e]; [|reflexivity].
  destruct (np.reshape (cp.asnumpy flat) _) as [r|e]; reflexivity.
Qed.

Lemma resample_run grid mode order cval self :
  resample grid mode order cval self =
  (rescaled ← Grid_scaled_to grid (np.shape (image self));
   sample_configured (image self) (Grid_grid rescaled)
     (effective mode (default_mode self))
     (effective order (default_order self))
     (effective cval (default_cval self)),
   self).
Proof.
  unfold resample, mbind at 1 2 3, method_bind, attr, call.
  destruct (Grid_scaled_to _ _) as [rescaled|e]; [|reflexivity].
  rewrite sample_run. cbn [mbind result_bind].
  destruct (sample_configured _ _ _ _ _) as [r|e] eqn:Er; [|reflexivity].
  unfold mret, method_ret.
  now rewrite (sample_configured_astype _ _ _ _ _ _ Er).
Qed.

Lemma transform_run transforms (kwargs : gmap string Py.value) self :
  transform transforms kwargs self =
  (transformed ← Grid_transform (grid self) transforms;
   rescaled ← Grid_scaled_to transformed (np.shape (image self));
   sample_configured (image self) (Grid_grid rescaled)
     (effective (kwarg kwargs "mode") (default_mode self))
     (effective (kwarg kwargs "order") (default_order self))
     (effective (kwarg kwargs "cval") (default_cval self)),
   self).
Proof.
  unfold transform, mbind at 1 2 3, method_bind, attr, call.
  destruct (Grid_transform _ _) as [transformed|e]; [|reflexivity].
  rewrite resample_run. cbn [mbind result_bind].
  destruct (Grid_scaled_to _ _) as [rescaled|e]; [|reflexivity].
  cbn [mbind result_bind].
  destruct (sample_configured _ _ _ _ _) as [r|e] eqn:Er; [|reflexivity].
  unfold mret, method_ret.
  now rewrite (sample_configured_astype _ _ _ _ _ _ Er).
Qed.

(** C1. In [sample], [resample] and [transform] each of [mode], [order]
    and [cval] reaches the kernel as the per-call override when that is
    truthy and as the instance default otherwise; a falsy override
    ([order=0], [cval=0], [mode=None], the empty string) gives the call made
    without it. *)
Theorem override_resolution points (g : Grid) (transforms : list Transform)
    (kwargs : gmap string Py.value) mode order cval self :
  (fst (sample points mode order cval self) =
     sample_configured (image self) points
       (if Py.truthy mode then mode else default_mode self)
       (if Py.truthy order then order else default_order self)
       (if Py.truthy cval then cval else default_cval self)) /\
  (fst (resample g mode order cval self) =
     rescaled ← Grid_scaled_to g (np.shape (image self));
     sample_configured (image self) (Grid_grid rescaled)
       (if Py.truthy mode then mode else default_mode self)
       (if Py.truthy order then order else default_order self)
       (if Py.truthy cval then cval else default_cval self)) /\
  (let given key := default Py.VNone (kwargs !! key) in
   fst (transform transforms kwargs self) =
     transformed ← Grid_transform (grid self) transforms;
     rescaled ← Grid_scaled_to transformed (np.shape (image self));
     sample_configured (image self) (Grid_grid rescaled)
       (if Py.truthy (given "mode") then given "mode" else default_mode self)
       (if Py.truthy (given "order") then given "order"
        else default_order self)
       (if Py.truthy (given "cval") then given "cval" else default_cval self)) /\
  (Py.truthy mode = false ->
   sample points mode order cval self = sample points Py.VNone order cval self /\
   resample g mode order cval self = resample g Py.VNone order cval self /\
   transform transforms (<["mode" := mode]> kwargs) self =
     transform transforms (delete "mode" kwargs) self) /\
  (Py.truthy order = false ->
   sample points mode order cval self = sample points mode Py.VNone cval self /\
   resample g mode order cval self = resample g mode Py.VNone cval self /\
   transform transforms (<["order" := order]> kwargs) self =
     transform transforms (delete "order" kwargs) self) /\
  (Py.truthy cval = false ->
   sample points mode order cval self = sample points mode order Py.VNone self /\
   resample g mode order cval self = resample g mode order Py.VNone self /\
   transform transforms (<["cval" := cval]> kwargs) self =
     transform transforms (delete "cval" kwargs) self) /\
  sample points (Py.VStr EmptyString) (Py.VInt 0) (Py.VInt 0) self =
    sample points Py.VNone Py.VNone Py.VNone self.
Proof.
  repeat split.
  - now rewrite sample_run.
  - now rewrite resample_run.
  - rewrite transform_run. unfold kwarg. cbn [fst].
    now destruct (kwargs !! "mode"), (kwargs !! "order"), (kwargs !! "cval").
  - rewrite !sample_run. now rewrite (effective_falsy mode).
  - rewrite !resample_run. now rewrite (effective_falsy mode).
  - rewrite !transform_run. unfold kwarg. simplify_map_eq.
    now rewrite (effective_falsy mode).
  - rewrite !sample_run. now rewrite (effective_falsy order).
  - rewrite !resample_run. now rewrite (effective_falsy order).
  - rewrite !transform_run. unfold kwarg. simplify_map_eq.
    now rewrite (effective_falsy order).
  - rewrite !sample_run. now rewrite (effective_falsy cval).
  - rewrite !resample_run. now rewrite (effective_falsy cval).
  - rewrite !transform_run. unfold kwarg. simplify_map_eq.
    now rewrite (effective_falsy cval).
Qed.


(** Whatever the kernel, [order=0] passed to [sample] is dropped. *)
Lemma sample_order_zero_dropped points mode cval self :
  sample points mode (Py.VInt 0) cval self =
  sample points mode Py.VNone cval self.
Proof. now rewrite !sample_run. Qed.

(** C2. On an adapter with default order 1, [sample(points, order=0)] is
    the call [sample(points)]: the kernel runs with order 1, and where
    order 0 and order 1 interpolation differ on the image at these points,
    what comes back is not the order 0 interpolation. *)
Theorem order_zero_override_is_ignored points mode cval self :
  let interpolation order :=
    sample_configured (image self) points
      (effective mode (default_mode self)) order
      (effective cval (default_cval self)) in
  default_order self = Py.VInt 1 ->
  interpolation (Py.VInt 0) <> interpolation (Py.VInt 1) ->
  sample points mode (Py.VInt 0) cval self
    = sample points mode Py.VNone cval self /\
  fst (sample points mode (Py.VInt 0) cval self) = interpolation (Py.VInt 1) /\
  fst (sample points mode (Py.VInt 0) cval self) <> interpolation (Py.VInt 0).
Proof.
  intros interpolation Hdefault Hdiffer.
  rewrite !sample_run. cbn [fst]. rewrite Hdefault.
  split; [reflexivity|]. split; [reflexivity|].
  intros Heq. apply Hdiffer. symmetry. exact Heq.
Qed.

(** C4. [resample] is [sample] on the coordinate array of the grid scaled
    to the shape of the image, with the overrides passed on as given. *)
Theorem resample_refines_spec (g : Grid) mode order cval self :
  resample g mode order cval self = resample_spec g mode order cval self.
Proof.
  rewrite resample_run.
  unfold resample_spec, mbind at 2 3, method_bind, attr, call.
  destruct (Grid_scaled_to _ _) as [rescaled|e]; [|reflexivity].
  now rewrite sample_run.
Qed.

(** C5. [transform] is [resample] on the instance's grid with the
    transforms applied, with the keyword overrides that were given passed
    on as given. *)
Theorem transform_refines_spec (transforms : list Transform)
    (kwargs : gmap string Py.value) self :
  transform transforms kwargs self = transform_spec transforms kwargs self.
Proof.
  rewrite transform_run.
  unfold transform_spec, resample_kw, mbind at 3 4, method_bind, attr, call.
  destruct (Grid_transform _ _) as [transformed|e]; [|reflexivity].
  rewrite resample_run. unfold kwarg.
  now destruct (kwargs !! "mode"), (kwargs !! "order"), (kwargs !! "cval").
Qed.

(** C6. Whatever the dtype of the image, the array that [sample],
    [resample] or [transform] returns has dtype [DTYPE]. *)
Theorem output_dtype points (g : Grid) (transforms : list Transform)
    (kwargs : gmap string Py.value) mode order cval self :
  (forall r, fst (sample points mode order cval self) = Ok r ->
     np.dtype_of r = DTYPE) /\
  (forall r, fst (resample g mode order cval self) = Ok r ->
     np.dtype_of r = DTYPE) /\
  (forall r, fst (transform transforms kwargs self) = Ok r ->
     np.dtype_of r = DTYPE).
Proof.
  split; [|split]; intros r.
  - rewrite sample_run. cbn [fst].
    intros Hr. now apply sample_configured_returns in Hr.
  - rewrite resample_run. cbn [fst mbind result_bind].
    destruct (Grid_scaled_to _ _) as [rescaled|e]; [|discriminate].
    intros Hr. now apply sample_configured_returns in Hr.
  - rewrite transform_run. cbn [fst mbind result_bind].
    destruct (Grid_transform _ _) as [transformed|e]; [|discriminate].
    cbn [mbind result_bind].
    destruct (Grid_scaled_to _ _) as [rescaled|e]; [|discriminate].
    intros Hr. now apply sample_configured_returns in Hr.
Qed.

(** C7. The constructor raises only when the constructor of the base class
    does; it stores [mode], [order] and [cval] as they are, whatever they
    are; and an operation hands them to the kernel as they are, which is
    the only step that looks at them. *)
Theorem construction_does_not_validate (image0 : np.ndarray elem)
    mode order cval :
  is_ok (__init__ image0 mode order cval) = is_ok (Interpolator_init image0) /\
  forall img (g : Grid),
    Interpolator_init image0 = Ok (img, g) ->
    let self := mk_self img g mode order cval in
    __init__ image0 mode order cval = Ok self /\
    default_mode self = mode /\ default_order self = order /\
    default_cval self = cval /\
    forall points,
      (forall e,
         np.reshape points [Z.of_nat (np.ndim img); -1]%Z = Raise e ->
         forall mode' order' cval',
           fst (sample points Py.VNone Py.VNone Py.VNone
                  (mk_self img g mode' order' cval')) = Raise e) /\
      (forall coords,
         np.reshape points [Z.of_nat (np.ndim img); -1]%Z = Ok coords ->
         fst (sample points Py.VNone Py.VNone Py.VNone self) =
           flat ← map_coordinates (cp.array img)
                    (cp.array (np.transpose coords)) mode order cval;
           sampled ← np.reshape (cp.asnumpy flat) (Z.of_nat <$> np.shape img);
           Ok (np.astype cast DTYPE sampled)).
Proof.
  split.
  - unfold __init__, mbind, result_bind.
    now destruct (Interpolator_init image0) as [[img g]|e].
  - intros img g Hbase self.
    split; [unfold __init__; now rewrite Hbase|].
    repeat (split; [reflexivity|]).
    intros points. split.
    + intros e He mode' order' cval'. rewrite sample_run. cbn [fst].
      now apply sample_configured_no_coords.
    + intros coords Hcoords. rewrite sample_run. cbn [fst].
      unfold sample_configured. subst self. cbn [image]. now rewrite Hcoords.
Qed.

(** C8. [sample], [resample] and [transform] leave the instance as it was,
    and what they return is settled by the image, the points or grid, and
    the effective configuration. *)
Theorem operations_leave_instance points (g : Grid)
    (transforms : list Transform) (kwargs : gmap string Py.value)
    mode order cval self :
  snd (sample points mode order cval self) = self /\
  snd (resample g mode order cval self) = self /\
  snd (transform transforms kwargs self) = self /\
  (forall self' mode' order' cval',
     image self' = image self ->
     effective mode' (default_mode self') = effective mode (default_mode self) ->
     effective order' (default_order self') = effective order (default_order self) ->
     effective cval' (default_cval self') = effective cval (default_cval self) ->
     fst (sample points mode' order' cval' self') =
       fst (sample points mode order cval self) /\
     fst (resample g mode' order' cval' self') =
       fst (resample g mode order cval self)) /\
  (forall self' (kwargs' : gmap string Py.value),
     image self' = image self -> grid self' = grid self ->
     effective (kwarg kwargs' "mode") (default_mode self') =
       effective (kwarg kwargs "mode") (default_mode self) ->
     effective (kwarg kwargs' "order") (default_order self') =
       effective (kwarg kwargs "order") (default_order self) ->
     effective (kwarg kwargs' "cval") (default_cval self') =
       effective (kwarg kwargs "cval") (default_cval self) ->
     fst (transform transforms kwargs' self') =
       fst (transform transforms kwargs self)).
Proof.
  rewrite !sample_run, !resample_run, !transform_run.
  repeat (split; [reflexivity|]). split.
  - intros self' mode' order' cval' Himg Hm Ho Hc.
    rewrite !sample_run, !resample_run. cbn [fst].
    now rewrite Himg, Hm, Ho, Hc.
  - intros self' kwargs' Himg Hgrid Hm Ho Hc.
    rewrite !transform_run. cbn [fst].
    now rewrite Himg, Hgrid, Hm, Ho, Hc.
Qed.

(** C9. [transform] reads the keywords [mode], [order] and [cval] and no
    other: keyword dictionaries that agree on these three give the same
    call, so an extra keyword (a misspelled [oder=0]) changes nothing and
    raises nothing. *)
Theorem transform_ignores_other_keywords (transforms : list Transform)
    (kwargs : gmap string Py.value) self :
  (forall kwargs' : gmap string Py.value,
     (forall key, key ∈ known_keys -> kwargs' !! key = kwargs !! key) ->
     transform transforms kwargs' self = transform transforms kwargs self) /\
  (forall key v,
     key ∉ known_keys ->
     transform transforms (<[key := v]> kwargs) self =
       transform transforms kwargs self).
Proof.
  assert (Hagree : forall kwargs' : gmap string Py.value,
    (forall key, key ∈ known_keys -> kwargs' !! key = kwargs !! key) ->
    transform transforms kwargs' self = transform transforms kwargs self).
  { intros kwargs' Hsame. rewrite !transform_run. unfold kwarg.
    rewrite !Hsame by (unfold known_keys; set_solver). reflexivity. }
  split; [exact Hagree|].
  intros key v Hkey. apply Hagree. intros key' Hkey'.
  apply lookup_insert_ne. intros <-. contradiction.
Qed.


End AdapterFacts.

(** ** Further properties of the operations *)

Section MoreAdapterFacts.
Context `{Collaborators}.
Implicit Types (self : BSplineInterpolatorCUDA) (points img : np.ndarray elem).
Implicit Types (mode order cval : Py.value).

(** [transform] is [sample] at the end of a chain: the instance's grid is
    transformed, the result is scaled to the shape of the image, and its
    coordinate array is sampled with the keywords that were given; the
    first of the two grid calls that raises ends the call. *)
Theorem transform_as_sample (transforms : list Transform)
    (kwargs : gmap string Py.value) self :
  transform transforms kwargs self =
  match Grid_transform (grid self) transforms with
  | Raise e => (Raise e, self)
  | Ok transformed =>
      match Grid_scaled_to transformed (np.shape (image self)) with
      | Raise e => (Raise e, self)
      | Ok rescaled =>
          sample (Grid_grid rescaled)
            (default Py.VNone (kwargs !! "mode"))
            (default Py.VNone (kwargs !! "order"))
            (default Py.VNone (kwargs !! "cval")) self
      end
  end.
Proof.
  rewrite transform_run.
  destruct (Grid_transform _ _) as [transformed|e]; [|reflexivity].
  cbn [mbind result_bind].
  destruct (Grid_scaled_to _ _) as [rescaled|e]; [|reflexivity].
  cbn [mbind result_bind]. rewrite sample_run. unfold kwarg.
  now destruct (kwargs !! "mode"), (kwargs !! "order"), (kwargs !! "cval").
Qed.

(** Whatever the shape of the grid, an array that [resample] or [transform]
    returns has the shape of the image. *)
Theorem resampled_shape (g : Grid) (transforms : list Transform)
    (kwargs : gmap string Py.value) mode order cval self :
  (forall r, fst (resample g mode order cval self) = Ok r ->
     np.shape r = np.shape (image self)) /\
  (forall r, fst (transform transforms kwargs self) = Ok r ->
     np.shape r = np.shape (image self)).
Proof.
  split; intros r.
  - rewrite resample_run. cbn [fst mbind result_bind].
    destruct (Grid_scaled_to _ _) as [rescaled|e]; [|discriminate].
    intros Hr. now apply sample_configured_returns in Hr.
  - rewrite transform_run. cbn [fst mbind result_bind].
    destruct (Grid_transform _ _) as [transformed|e]; [|discriminate].
    cbn [mbind result_bind].
    destruct (Grid_scaled_to _ _) as [rescaled|e]; [|discriminate].
    intros Hr. now apply sample_configured_returns in Hr.
Qed.

(** When [transform] returns, every stage before has succeeded, the kernel
    has given as many values as the image has pixels, and the array
    returned holds these values converted to [DTYPE] once, although
    [astype(DTYPE)] is called three times on the way out. *)
Theorem transform_returns_kernel_values (transforms : list Transform)
    (kwargs : gmap string Py.value) self r :
  fst (transform transforms kwargs self) = Ok r ->
  exists transformed rescaled coords flat,
    Grid_transform (grid self) transforms = Ok transformed /\
    Grid_scaled_to transformed (np.shape (image self)) = Ok rescaled /\
    np.reshape (Grid_grid rescaled) [Z.of_nat (np.ndim (image self)); -1]%Z
      = Ok coords /\
    map_coordinates (cp.array (image self)) (cp.array (np.transpose coords))
      (effective (kwarg kwargs "mode") (default_mode self))
      (effective (kwarg kwargs "order") (default_order self))
      (effective (kwarg kwargs "cval") (default_cval self)) = Ok flat /\
    np.size (cp.asnumpy flat) = np.size (image self) /\
    r = np.mk_ndarray DTYPE (np.shape (image self))
          (if decide (np.dtype_of (cp.asnumpy flat) = DTYPE)
           then np.data (cp.asnumpy flat)
           else cast (np.dtype_of (cp.asnumpy flat)) DTYPE
                  <$> np.data (cp.asnumpy flat)).
Proof.
  rewrite transform_run. cbn [fst mbind result_bind].
  destruct (Grid_transform _ _) as [transformed|e] eqn:Egrid; [|discriminate].
  cbn [mbind result_bind].
  destruct (Grid_scaled_to _ _) as [rescaled|e] eqn:Escaled; [|discriminate].
  cbn [mbind result_bind].
  destruct (np.reshape (Grid_grid rescaled)
              [Z.of_nat (np.ndim (image self)); -1]%Z)
    as [coords|e] eqn:Ecoords.
  2:{ rewrite (sample_configured_no_coords _ _ _ _ _ _ Ecoords). discriminate. }
  rewrite (sample_configured_kernel _ _ _ _ _ _ Ecoords).
  destruct (map_coordinates _ _ _ _ _) as [flat|e] eqn:Eflat; [|discriminate].
  cbn [mbind result_bind]. case_decide as Hcount; [|discriminate].
  intros [= <-].
  exists transformed, rescaled, coords, flat. 
  repeat (split; [first [assumption | reflexivity]|]). reflexivity.
Qed.

(** The arrays the operations return hold as many values as their shape
    says, provided the arrays the kernel returns do. *)
Theorem operations_return_well_formed points (g : Grid)
    (transforms : list Transform) (kwargs : gmap string Py.value)
    mode order cval self :
  (forall input coordinates m o c flat,
     map_coordinates input coordinates m o c = Ok flat ->
     np.wf (cp.asnumpy flat)) ->
  (forall r, fst (sample points mode order cval self) = Ok r -> np.wf r) /\
  (forall r, fst (resample g mode order cval self) = Ok r -> np.wf r) /\
  (forall r, fst (transform transforms kwargs self) = Ok r -> np.wf r).
Proof.
  intros Hkernel.
  assert (Hcore : forall img pts m o c r,
            sample_configured img pts m o c = Ok r -> np.wf r).
  { intros img pts m o c r. unfold sample_configured, mbind, result_bind.
    destruct (np.reshape pts _) as [coords|e]; [|discriminate].
    destruct (map_coordinates _ _ _ _ _) as [flat|e] eqn:Eflat; [|discriminate].
    rewrite reshape_exact. case_decide as Hcount; [|discriminate].
    intros [= <-]. apply Hkernel in Eflat.
    unfold np.wf, np.size, np.astype in *. cbn [np.shape np.data].
    case_decide; [|rewrite length_fmap]; congruence. }
  split; [|split]; intros r.
  - rewrite sample_run. cbn [fst]. apply Hcore.
  - rewrite resample_run. cbn [fst mbind result_bind].
    destruct (Grid_scaled_to _ _) as [rescaled|e]; [|discriminate].
    apply Hcore.
  - rewrite transform_run. cbn [fst mbind result_bind].
    destruct (Grid_transform _ _) as [transformed|e]; [|discriminate].
    cbn [mbind result_bind].
    destruct (Grid_scaled_to _ _) as [rescaled|e]; [|discriminate].
    apply Hcore.
Qed.

(** What a collaborator raises comes out of the operation as it is: the
    error of [Grid.transform] out of [transform], whatever the keywords;
    the error of [Grid.scaled_to] out of [resample]; the error of the
    kernel out of [sample], once the points have been laid out. *)
Theorem collaborator_errors_propagate points (g : Grid)
    (transforms : list Transform) (kwargs : gmap string Py.value)
    mode order cval self :
  (forall e,
     Grid_transform (grid self) transforms = Raise e ->
     fst (transform transforms kwargs self) = Raise e) /\
  (forall e,
     Grid_scaled_to g (np.shape (image self)) = Raise e ->
     fst (resample g mode order cval self) = Raise e) /\
  (forall e coords,
     np.reshape points [Z.of_nat (np.ndim (image self)); -1]%Z = Ok coords ->
     map_coordinates (cp.array (image self)) (cp.array (np.transpose coords))
       (effective mode (default_mode self))
       (effective order (default_order self))
       (effective cval (default_cval self)) = Raise e ->
     fst (sample points mode order cval self) = Raise e).
Proof.
  split; [|split].
  - intros e He. rewrite transform_run. now rewrite He.
  - intros e He. rewrite resample_run. now rewrite He.
  - intros e coords Hcoords He. rewrite sample_run. cbn [fst].
    rewrite (sample_configured_kernel _ _ _ _ _ _ Hcoords). now rewrite He.
Qed.

(** The table of coordinates carries the points whole: transposed back and
    given the shape of the points again, it is the points array. *)
Theorem coordinate_table_round_trip points self coords :
  np.wf points ->
  np.reshape points [Z.of_nat (np.ndim (image self)); -1]%Z = Ok coords ->
  np.reshape (np.transpose (np.transpose coords)) (Z.of_nat <$> np.shape points)
    = Ok points.
Proof.
  intros Hwf Hcoords.
  destruct (reshape_rows_inv _ _ _ Hcoords) as (Hnd & Hmod & ->).
  set (nd := np.ndim (image self)) in *. clearbody nd.
  pose proof (Nat.div_mod_eq (np.size points) nd) as Hcount.
  rewrite Hmod, Nat.add_0_r in Hcount.
  set (n := np.size points / nd) in *. clearbody n.
  rewrite (transpose_2d_involutive _ nd n).
  - rewrite reshape_exact. cbn [np.shape np.data np.dtype_of].
    rewrite decide_True.
    + now destruct points.
    + unfold np.size, np.prod in *. cbn [np.shape foldr]. lia.
  - reflexivity.
  - unfold np.wf, np.size, np.prod in *. cbn [np.shape np.data foldr]. lia.
Qed.

End MoreAdapterFacts.

(** * The adapter at work on the test double *)

Import Mock.
Local Open Scope Q_scope.

Lemma order_zero_override_is_ignored_witness :
  default_order strip_adapter = Py.VInt 1 /\
  sample_configured strip strip_points constant (Py.VInt 0) (Py.VInt 0)
    = Ok strip_nearest /\
  sample_configured strip strip_points constant (Py.VInt 1) (Py.VInt 0)
    = Ok strip_linear /\
  fst (sample strip_points Py.VNone (Py.VInt 0) Py.VNone strip_adapter)
    = Ok strip_linear /\
  fst (sample strip_points Py.VNone Py.VNone Py.VNone strip_adapter)
    = Ok strip_linear.
Proof.
  assert (Hdiffer :
    sample_configured strip strip_points constant (Py.VInt 0) (Py.VInt 0) <>
    sample_configured strip strip_points constant (Py.VInt 1) (Py.VInt 0))
    by (vm_compute; discriminate).
  destruct (order_zero_override_is_ignored (H := collaborators) strip_points
              Py.VNone Py.VNone strip_adapter eq_refl Hdiffer)
    as (Hsame & Hone & _).
  split; [reflexivity|].
  split; [vm_compute; reflexivity|].
  split; [vm_compute; reflexivity|].
  split.
  - rewrite Hone. vm_compute. reflexivity.
  - rewrite <- Hsame, Hone. vm_compute. reflexivity.
Defined.

Lemma override_resolution_witness :
  Py.truthy (Py.VInt 0) = false /\
  sample strip_points Py.VNone (Py.VInt 0) Py.VNone strip_adapter =
  sample strip_points Py.VNone Py.VNone Py.VNone strip_adapter.
Proof.
  split; [reflexivity|].
  destruct (override_resolution (H := collaborators) strip_points
              (default_grid [1; 2]%nat) [] ∅
              Py.VNone (Py.VInt 0) Py.VNone strip_adapter)
    as (_ & _ & _ & _ & Horder & _).
  apply Horder. reflexivity.
Defined.


Lemma output_dtype_witness :
  np.dtype_of strip_uint8 = np.uint8 /\
  exists r,
    fst (transform [] ∅ strip_uint8_adapter) = Ok r /\
    np.dtype_of r = np.float32.
Proof.
  split; [reflexivity|].
  destruct (output_dtype (H := collaborators) strip_points
              (default_grid [1; 2]%nat) [] ∅
              Py.VNone Py.VNone Py.VNone strip_uint8_adapter)
    as (_ & _ & Htransform).
  exists strip_nearest.
  split; [vm_compute; reflexivity|].
  apply Htransform. vm_compute. reflexivity.
Defined.

Lemma construction_does_not_validate_witness :
  let self := mk_self strip (default_grid [1; 2]%nat)
                (Py.VStr "no such mode") (Py.VInt 7) (Py.VStr "x") in
  __init__ strip (Py.VStr "no such mode") (Py.VInt 7) (Py.VStr "x")
    = Ok self /\
  fst (sample strip_points Py.VNone Py.VNone Py.VNone self)
    = Raise (External "ValueError").
Proof.
  destruct (construction_does_not_validate (H := collaborators) strip
              (Py.VStr "no such mode") (Py.VInt 7) (Py.VStr "x"))
    as (_ & Hinit).
  destruct (Hinit strip (default_grid [1; 2]%nat) eq_refl)
    as (Hok & _ & _ & _ & Hops).
  split; [exact Hok|].
  destruct (Hops strip_points) as (_ & Hkernel).
  rewrite (Hkernel _ eq_refl). vm_compute. reflexivity.
Defined.

Lemma operations_leave_instance_witness :
  let other := mk_self strip (default_grid [4%nat]) constant (Py.VInt 0)
                 (Py.VInt 0) in
  snd (sample strip_points Py.VNone (Py.VInt 1) Py.VNone strip_adapter)
    = strip_adapter /\
  fst (sample strip_points Py.VNone Py.VNone (Py.VBool false) strip_adapter)
    = fst (sample strip_points Py.VNone (Py.VInt 1) Py.VNone other).
Proof.
  intros other.
  destruct (operations_leave_instance (H := collaborators) strip_points
              (default_grid [1; 2]%nat) [] ∅
              Py.VNone (Py.VInt 1) Py.VNone strip_adapter)
    as (Hself & _).
  split; [exact Hself|].
  destruct (operations_leave_instance (H := collaborators) strip_points
              (default_grid [1; 2]%nat) [] ∅
              Py.VNone (Py.VInt 1) Py.VNone other)
    as (_ & _ & _ & Hpure & _).
  apply (Hpure strip_adapter Py.VNone Py.VNone (Py.VBool false));
    reflexivity.
Defined.

Lemma transform_ignores_other_keywords_witness :
  ("oder" ∉ (known_keys : list string)) /\
  transform [] (<["oder" := Py.VInt 0]> ∅) strip_adapter =
    transform [] ∅ strip_adapter /\
  fst (transform [] ∅ strip_adapter) = Ok strip_nearest.
Proof.
  assert (Hkey : "oder" ∉ (known_keys : list string)).
  { unfold known_keys. intros Hin.
    repeat (apply elem_of_cons in Hin as [Hin|Hin]; [discriminate Hin|]).
    now apply elem_of_nil in Hin. }
  split; [exact Hkey|]. split; [|vm_compute; reflexivity].
  destruct (transform_ignores_other_keywords (H := collaborators) [] ∅
              strip_adapter)
    as (_ & Hextra).
  now apply Hextra.
Defined.



(** ** Further runs *)

(** The kernel of the test double returns as many values as the shape of
    its output says. *)
Lemma kernel_well_formed input coordinates mode order cval flat :
  kernel input coordinates mode order cval = Ok flat ->
  np.wf (cp.asnumpy flat).
Proof.
  unfold kernel.
  destruct (order_number order) as [o|]; [|discriminate].
  case_match; [discriminate|].
  destruct (number cval) as [fill|]; [|discriminate].
  destruct (np.shape (cp.asnumpy coordinates)) as [|axes rest];
    [discriminate|].
  case_match; [discriminate|].
  intros [= <-]. unfold np.wf, np.size. cbn [cp.asnumpy np.data np.shape].
  now rewrite length_fmap, length_seq.
Qed.

Lemma resampled_shape_witness :
  exists r,
    fst (transform [[0; 1 # 8]] ∅ strip_adapter) = Ok r /\
    np.shape r = np.shape strip.
Proof.
  destruct (resampled_shape (H := collaborators) (default_grid [1; 2]%nat)
              [[0; 1 # 8]] ∅ Py.VNone Py.VNone Py.VNone strip_adapter)
    as (_ & Htransform).
  eexists. split; [vm_compute; reflexivity|].
  apply Htransform. vm_compute. reflexivity.
Defined.

Lemma transform_returns_kernel_values_witness :
  fst (transform [] ∅ strip_adapter) = Ok strip_nearest /\
  exists flat : cp.ndarray elem,
    np.size (cp.asnumpy flat) = np.size strip /\
    np.data strip_nearest = np.data (cp.asnumpy flat).
Proof.
  assert (Hrun : fst (transform [] ∅ strip_adapter) = Ok strip_nearest)
    by (vm_compute; reflexivity).
  split; [exact Hrun|].
  destruct (transform_returns_kernel_values (H := collaborators)
              [] ∅ strip_adapter strip_nearest Hrun)
    as (transformed & rescaled & coords & flat & _ & _ & _ & _ & Hcount & Hr).
  exists flat. split; [exact Hcount|].
  apply (f_equal np.data) in Hr. cbn [np.data] in Hr. rewrite Hr.
  case_decide; [reflexivity|].
  exact (list_fmap_id (np.data (cp.asnumpy flat))).
Defined.

Lemma operations_return_well_formed_witness :
  exists r,
    fst (transform [] ∅ strip_adapter) = Ok r /\
    np.wf r.
Proof.
  destruct (operations_return_well_formed (H := collaborators) strip_points
              (default_grid [1; 2]%nat) [] ∅
              Py.VNone Py.VNone Py.VNone strip_adapter
              kernel_well_formed)
    as (_ & _ & Htransform).
  exists strip_nearest. split; [vm_compute; reflexivity|].
  apply Htransform. vm_compute. reflexivity.
Defined.

Lemma collaborator_errors_propagate_witness :
  let strict_adapter :=
    mk_self (H := strict) strip (default_grid [1; 2]%nat) constant
      (Py.VInt 1) (Py.VInt 0) in
  fst (transform (H := strict) [[1 # 8]] {[ "mode" := Py.VStr "bogus" ]}
         strict_adapter) = Raise (External "ValueError") /\
  fst (resample (default_grid [4%nat]) Py.VNone Py.VNone Py.VNone
         strip_adapter) = Raise (External "ValueError") /\
  fst (sample strip_points (Py.VStr "bogus") Py.VNone Py.VNone
         strip_adapter) = Raise (External "ValueError").
Proof.
  intros strict_adapter. split; [|split].
  - destruct (collaborator_errors_propagate (H := strict) strip_points
                (default_grid [1; 2]%nat) [[1 # 8]]
                {[ "mode" := Py.VStr "bogus" ]}
                Py.VNone Py.VNone Py.VNone strict_adapter)
      as (Hgrid & _).
    apply Hgrid. vm_compute. reflexivity.
  - destruct (collaborator_errors_propagate (H := collaborators)
                strip_points (default_grid [4%nat]) [] ∅
                Py.VNone Py.VNone Py.VNone strip_adapter)
      as (_ & Hscale & _).
    apply Hscale. vm_compute. reflexivity.
  - destruct (collaborator_errors_propagate (H := collaborators)
                strip_points (default_grid [1; 2]%nat) [] ∅
                (Py.VStr "bogus") Py.VNone Py.VNone strip_adapter)
      as (_ & _ & Hkernel).
    apply (Hkernel _ (np.mk_ndarray np.float64 [2%nat; 2%nat]
                        (np.data strip_points)));
      vm_compute; reflexivity.
Defined.

Lemma coordinate_table_round_trip_witness :
  let coords := np.mk_ndarray np.float64 [2%nat; 4%nat]
                  (np.data quarter_shifted) in
  np.wf quarter_shifted /\
  np.reshape quarter_shifted [2; -1]%Z = Ok coords /\
  np.reshape (np.transpose (np.transpose coords)) [2; 2; 2]%Z
    = Ok quarter_shifted.
Proof.
  intros coords.
  split; [reflexivity|]. split; [reflexivity|].
  apply (coordinate_table_round_trip (H := collaborators) quarter_shifted
           checkerboard_adapter coords); reflexivity.
Defined.
